(** * hackathon-backend: probes and the structured-error taxonomy

    A shallow embedding of
      - [app/api/v1/endpoints/base.py]   (the [ping] and [health] handlers),
      - [app/exceptions/client_initialization_error.py]
        (the [ClientInitializationError] constructor),
    together with the declarations these two files import from modules that
    are not part of the sources at hand ([app.core.config],
    [app.dtos.models], [app.enums.error_codes],
    [app.exceptions.core_exception]). *)

From Stdlib Require Import ZArith QArith Lia Lqa String List.
From stdpp Require Import base option list gmap strings fin_maps.

Local Open Scope string_scope.

(** ** Python numbers

    Python integers are unbounded: [Z]. A finite [float] is a rational
    number, and the only operation the handlers apply to a float is the
    conversion [int(x)], which truncates toward zero; no floating-point
    arithmetic is performed. *)

Module PyNum.

Inductive num : Type :=
  | PInt (z : Z)
  | PFloat (q : Q).

(** The mathematical value of a number. *)
Definition value (x : num) : Q :=
  match x with
  | PInt z => inject_Z z
  | PFloat q => q
  end.

(** [int(x)] on a finite float: truncation toward zero. *)
Definition trunc (q : Q) : Z := Z.quot (Qnum q) (Zpos (Qden q)).

(** The builtin [int(x)]. *)
Definition int (x : num) : Z :=
  match x with
  | PInt z => z
  | PFloat q => trunc q
  end.

End PyNum.

(** ** The probes of [app/api/v1/endpoints/base.py] *)

Module Probes.

Import PyNum.

(** [app.core.config.settings]: only the attribute the handler reads. Its
    declaration is not in the sources; the handler converts it with [int],
    so it is kept as a Python number of either kind. *)
Record Settings : Type := mkSettings {
  service_start_time : num
}.

(** [app.dtos.models.PingResponse]: the three keyword fields the handler
    passes to its constructor. *)
Record PingResponse : Type := mkPingResponse {
  status : string;
  uptime : Z;
  timestamp : Z
}.

(** What a handler can observe of the running process: the settings object
    and the reading [time.time()] would return now (a float). *)
Record Process : Type := mkProcess {
  settings : Settings;
  time_time : Q
}.

(** [ping()], lines 18-29. *)
Definition ping (p : Process) : PingResponse :=
  let now := int (PFloat (time_time p)) in
  let uptime := (now - int (service_start_time (settings p)))%Z in
  {| status := "ok"; uptime := uptime; timestamp := now |}.

(** [health()], lines 38-49: a fresh dict literal. *)
Definition health (p : Process) : gmap string string :=
  {[ "status" := "ok" ]}.

End Probes.

(** ** Python results, values and objects *)

Module Py.

(** An exception in flight, by class name and message. *)
Record Raised : Type := mkRaised {
  raised_type : string;
  raised_msg : string
}.

(** The outcome of evaluating an expression: a value, or a raised
    exception that propagates to the caller. *)
Inductive result (A : Type) : Type :=
  | Ok (a : A)
  | Raise (r : Raised).

Arguments Ok {A} a.
Arguments Raise {A} r.

Definition is_Ok {A : Type} (x : result A) : bool :=
  match x with Ok _ => true | Raise _ => false end.

(** Object identities. *)
Definition loc : Type := positive.

(** The classes of [app.exceptions]. *)
Inductive Class : Type :=
  | cls_CoreError
  | cls_ClientInitializationError.

#[global] Instance Class_eq_dec : EqDecision Class.
Proof. solve_decision. Defined.

(** [class ClientInitializationError(CoreError)], line 9. The bases of
    [CoreError] itself belong to a module outside the sources. *)
Definition bases (c : Class) : list Class :=
  match c with
  | cls_ClientInitializationError => [cls_CoreError]
  | cls_CoreError => []
  end.

(** Method resolution order: the class, then the linearised bases. *)
Definition mro (c : Class) : list Class :=
  c :: flat_map (fun b => b :: bases b) (bases c).

Definition issubclass (c d : Class) : bool := bool_decide (d ∈ mro c).

End Py.

(** ** The error taxonomy of [app/exceptions] *)

Section Taxonomy.

Import Py.

(** [app.enums.error_codes.ErrorCodes] is imported from a module outside the
    sources: the type of its members and the member the constructor names
    are parameters of the development. *)
Context {ErrorCode : Type}.
Variable CLIENT_INITIALIZATION_ERROR : ErrorCode.

(** Values an attribute can hold or a method can return. *)
Inductive PyValue : Type :=
  | VNone
  | VStr (s : string)
  | VInt (z : Z)
  | VCode (c : ErrorCode).

(** A lower-level exception instance as the constructor sees it: its class
    name and what calling its [__str__] method does (user classes may
    override [__str__]; it may return any value or raise). *)
Record PyException : Type := mkPyException {
  exc_class : string;
  dunder_str : result PyValue
}.

(** The argument type [Exception | str] of line 10. *)
Inductive Details : Type :=
  | DStr (s : string)
  | DExc (e : PyException).

(** The builtin [str(x)]: a [str] is returned as it is; for any other
    object the result of [__str__] is returned when it is a [str], and a
    [TypeError] is raised when it is not. *)
Definition py_str (d : Details) : result string :=
  match d with
  | DStr s => Ok s
  | DExc e =>
      match dunder_str e with
      | Ok (VStr s) => Ok s
      | Ok _ => Raise (mkRaised "TypeError" "__str__ returned non-string")
      | Raise r => Raise r
      end
  end.

(** An instance: its class and its attribute dictionary ([__dict__]). *)
Record Instance : Type := mkInstance {
  class_of : Class;
  attrs : gmap string PyValue
}.

(** The heap: the instances alive, by identity. *)
#[local] Abbreviation Heap := (gmap loc Instance).

(** Computations that read and write the heap and may raise. *)
Definition M (A : Type) : Type := Heap -> result A * Heap.

Definition ret {A : Type} (a : A) : M A := fun h => (Ok a, h).

Definition bind {A B : Type} (m : M A) (k : A -> M B) : M B :=
  fun h =>
    match m h with
    | (Ok a, h') => k a h'
    | (Raise r, h') => (Raise r, h')
    end.

Definition lift {A : Type} (x : result A) : M A := fun h => (x, h).

Notation "x <- m ;; k" := (bind m (fun x => k))
  (at level 100, m at next level, right associativity).
Notation "m ;;; k" := (bind m (fun _ => k))
  (at level 100, right associativity).

(** [object.__new__(cls)]: a fresh instance with an empty [__dict__]. *)
Definition alloc (c : Class) : M loc :=
  fun h =>
    let l := fresh (dom h) in
    (Ok l, <[l := {| class_of := c; attrs := ∅ |}]> h).

Definition set_attr (name : string) (v : PyValue) (o : Instance) : Instance :=
  {| class_of := class_of o; attrs := <[name := v]> (attrs o) |}.

(** [self.name = v]. *)
Definition setattr (self : loc) (name : string) (v : PyValue) : M unit :=
  fun h => (Ok tt, alter (set_attr name v) self h).

(** [obj.name]. *)
Definition getattr (obj : loc) (name : string) : M PyValue :=
  fun h =>
    match h !! obj ≫= (fun o => attrs o !! name) with
    | Some v => (Ok v, h)
    | None => (Raise (mkRaised "AttributeError" name), h)
    end.

(** [isinstance(obj, cls)]. *)
Definition isinstance (h : Heap) (obj : loc) (c : Class) : bool :=
  match h !! obj with
  | Some o => issubclass (class_of o) c
  | None => false
  end.

(** The optional keyword argument [details] of [CoreError]: absent, or a
    string. *)
Definition details_value (details : option string) : PyValue :=
  match details with
  | Some s => VStr s
  | None => VNone
  end.

(** Modelled from the spec: [CoreError.__init__] of
    [app/exceptions/core_exception.py], which is not in the sources.
    "CoreError(message, code, details = absent) -> a new error value with
    those three fields set; always succeeds". *)
Definition CoreError__init__ (self : loc) (message : string)
    (code : ErrorCode) (details : option string) : M unit :=
  setattr self "message" (VStr message) ;;;
  setattr self "code" (VCode code) ;;;
  setattr self "details" (details_value details).

(** [ClientInitializationError.__init__], lines 10-15. The argument
    [str(details)] is evaluated before the call to the base initialiser. *)
Definition ClientInitializationError__init__ (self : loc)
    (details : Details) : M unit :=
  s <- lift (py_str details) ;;
  CoreError__init__ self "The client initialization failed."
    CLIENT_INITIALIZATION_ERROR (Some s).

(** A call [cls(...)]: allocate, run the initialiser on the new instance,
    return it. *)
Definition instantiate (c : Class) (init : loc -> M unit) : M loc :=
  self <- alloc c ;;
  init self ;;;
  ret self.

(** The call [CoreError(message, code, details=...)]. *)
Definition CoreError (message : string) (code : ErrorCode)
    (details : option string) : M loc :=
  instantiate cls_CoreError
    (fun self => CoreError__init__ self message code details).

(** The call [ClientInitializationError(details)]. *)
Definition ClientInitializationError (details : Details) : M loc :=
  instantiate cls_ClientInitializationError
    (fun self => ClientInitializationError__init__ self details).

(** Modelled from the spec: the rendering boundary, which is outside the
    sources. "the renderer must be able to read code, message, and optional
    details": it reads the three base attributes and nothing else, without
    looking at the class of the instance. *)
Definition render (err : loc) : M (PyValue * PyValue * PyValue) :=
  m <- getattr err "message" ;;
  c <- getattr err "code" ;;
  d <- getattr err "details" ;;
  ret (m, c, d).

(** The operations of the taxonomy: the two constructors and the reads of
    an attribute. *)
Inductive Op : Type :=
  | NewCoreError (message : string) (code : ErrorCode) (details : option string)
  | NewClientInitializationError (details : Details)
  | GetAttr (obj : loc) (name : string).

Inductive Outcome : Type :=
  | Created (l : loc)
  | Read (v : PyValue).

Definition run_op (op : Op) : M Outcome :=
  match op with
  | NewCoreError m c d => l <- CoreError m c d ;; ret (Created l)
  | NewClientInitializationError d =>
      l <- ClientInitializationError d ;; ret (Created l)
  | GetAttr l n => v <- getattr l n ;; ret (Read v)
  end.

(** A program using the taxonomy: operations one after the other, each
    exception handled by the caller before the next operation. *)
Definition exec (ops : list Op) (h : Heap) : Heap :=
  foldl (fun h op => snd (run_op op h)) h ops.

(** The attribute dictionary with the three base fields bound. *)
Definition base_attrs (message : string) (code : ErrorCode)
    (details : PyValue) : gmap string PyValue :=
  {[ "message" := VStr message; "code" := VCode code; "details" := details ]}.

(** The three attribute names of the base contract. *)
Definition base_fields : gset string := {[ "message"; "code"; "details" ]}.

End Taxonomy.

Abbreviation Heap := (gmap Py.loc Instance).

(** ** The error-code registry *)

Module ErrorCodes.

(** Modelled from the spec: the value of a member of the registry
    [app/enums/error_codes.py], which is not in the sources.
    "Representable as a primitive (string or integer)". *)
Inductive Primitive : Type :=
  | PrimStr (s : string)
  | PrimInt (z : Z).

#[global] Instance Primitive_eq_dec : EqDecision Primitive.
Proof. solve_decision. Defined.

(** Modelled from the spec: a member of the registry
    [app/enums/error_codes.py], "symbolic identifiers, each mapped to a
    stable string/number". *)
Record Member : Type := mkMember {
  name : string;
  value : Primitive
}.

#[global] Instance Member_eq_dec : EqDecision Member.
Proof. solve_decision. Defined.

(** Modelled from the spec: the registry [app/enums/error_codes.py] as
    "a closed, named set of classification values", its members in the
    order of their definition. *)
Definition Registry : Type := list Member.


(** Modelled from the spec: when a new member would "collide with or shadow
    an existing one" of the registry [app/enums/error_codes.py]: it takes
    the name or the value of a member already there. *)
Definition collides (m m' : Member) : bool :=
  bool_decide (name m = name m') || bool_decide (value m = value m').

(** Modelled from the spec: extension of the registry
    [app/enums/error_codes.py]. "Adding a new failure category means adding
    a new member; it must never collide with or shadow an existing one." *)
Definition add_member (r : Registry) (m : Member) : option Registry :=
  if List.existsb (collides m) r then None else Some (r ++ [m])%list.

(** Modelled from the spec: the registry [app/enums/error_codes.py] that a
    list of member definitions gives, each added to the ones before it. *)
Fixpoint define_from (r : Registry) (body : list Member) : option Registry :=
  match body with
  | [] => Some r
  | m :: body' =>
      match add_member r m with
      | Some r' => define_from r' body'
      | None => None
      end
  end.

Definition define (body : list Member) : option Registry :=
  define_from [] body.



End ErrorCodes.

(** * Properties *)

(** ** Truncation toward zero *)

Section Truncation.

Import PyNum.
Local Open Scope Z_scope.

(** The remainder of a truncating division has the sign of the dividend and
    is smaller than the divisor. *)
Lemma quot_decompose (n : Z) (d : positive) :
  exists r, n = Z.pos d * (n ÷ Z.pos d) + r /\
            Z.abs r < Z.pos d /\ (0 <= n -> 0 <= r) /\ (n <= 0 -> r <= 0).
Proof.
  exists (Z.rem n (Z.pos d)). split; [apply Z.quot_rem' |].
  split; [| split]; intros.
  - pose proof (Z.rem_bound_abs n (Z.pos d)). lia.
  - apply Z.rem_bound_pos; lia.
  - apply Z.rem_bound_pos_neg; lia.
Qed.

(** A float whose value is the integer [z] converts to [z]. *)
Lemma trunc_integral (q : Q) (z : Z) : (q == inject_Z z)%Q -> trunc q = z.
Proof.
  unfold Qeq, trunc, inject_Z; simpl. intros H.
  rewrite Z.mul_1_r in H. rewrite H. apply Z.quot_mul. lia.
Qed.


(** Truncation is monotone. *)
Lemma trunc_mono (a b : Q) : (a <= b)%Q -> trunc a <= trunc b.
Proof.
  destruct a as [n1 d1], b as [n2 d2]. unfold Qle, trunc; simpl. intros H.
  destruct (quot_decompose n1 d1) as (r1 & E1 & B1 & P1 & N1).
  destruct (quot_decompose n2 d2) as (r2 & E2 & B2 & P2 & N2).
  remember (n1 ÷ Z.pos d1) as q1. remember (n2 ÷ Z.pos d2) as q2.
  assert (Hd1 : 0 < Z.pos d1) by lia. assert (Hd2 : 0 < Z.pos d2) by lia.
  remember (Z.pos d1) as D1. remember (Z.pos d2) as D2.
  destruct (Z_le_gt_dec q1 q2) as [|Hgt]; [assumption | exfalso].
  assert (HP : 0 < D1 * D2) by (apply Z.mul_pos_pos; assumption).
  assert (Hq : D1 * D2 * (q2 + 1) <= D1 * D2 * q1)
    by (apply Z.mul_le_mono_nonneg_l; lia).
  assert (H1 : n1 * D2 = D1 * D2 * q1 + r1 * D2) by (rewrite E1 at 1; ring).
  assert (H2 : n2 * D1 = D1 * D2 * q2 + r2 * D1) by (rewrite E2 at 1; ring).
  destruct (Z_le_gt_dec 0 n1) as [Hn1 | Hn1];
    destruct (Z_le_gt_dec 0 n2) as [Hn2 | Hn2].
  - specialize (P1 Hn1). specialize (P2 Hn2).
    assert (0 <= r1 * D2) by (apply Z.mul_nonneg_nonneg; lia).
    assert (r2 * D1 < D2 * D1) by (apply Z.mul_lt_mono_pos_r; lia).
    lia.
  - assert (Hr2 : r2 <= 0) by lia. specialize (P1 Hn1).
    assert (0 <= r1 * D2) by (apply Z.mul_nonneg_nonneg; lia).
    assert (r2 * D1 <= 0) by (apply Z.mul_nonpos_nonneg; lia).
    lia.
  - assert (Hr1 : r1 <= 0) by lia. specialize (P2 Hn2).
    assert (q1 <= 0).
    { destruct (Z_le_gt_dec q1 0); [assumption | exfalso].
      assert (D1 * 1 <= D1 * q1) by (apply Z.mul_le_mono_nonneg_l; lia). lia. }
    assert (0 <= q2).
    { destruct (Z_le_gt_dec 0 q2); [assumption | exfalso].
      assert (D2 * q2 <= D2 * (-1)) by (apply Z.mul_le_mono_nonneg_l; lia). lia. }
    lia.
  - assert (Hr1 : r1 <= 0) by lia. assert (Hr2 : r2 <= 0) by lia.
    assert (r2 * D1 <= 0) by (apply Z.mul_nonpos_nonneg; lia).
    assert (- D1 * D2 < r1 * D2) by (apply Z.mul_lt_mono_pos_r; lia).
    lia.
Qed.

Lemma int_trunc_value (x : num) : int x = trunc (value x).
Proof.
  destruct x as [z | q]; simpl; [| reflexivity].
  symmetry. apply trunc_integral. reflexivity.
Qed.

Lemma int_mono (x y : num) : (value x <= value y)%Q -> int x <= int y.
Proof. rewrite !int_trunc_value. apply trunc_mono. Qed.

End Truncation.

(** ** The probes *)

Section ProbeFacts.

Import PyNum Probes.
Local Open Scope Z_scope.



(** C8. Readiness: whatever the state of the process, [health] answers the
    dict with the one key "status", bound to "ok". *)
Theorem health_exact (p : Process) :
  health p = {[ "status" := "ok" ]}
  /\ size (health p) = 1%nat
  /\ forall k v, health p !! k = Some v <-> (k = "status" /\ v = "ok")%string.
Proof.
  unfold health. split; [reflexivity |]. split; [apply map_size_singleton |].
  intros k v. rewrite lookup_singleton_Some. intuition congruence.
Qed.

(** C9, as the code has it: the uptime is a non-negative integer whenever
    the current time is not earlier than the service start time, and the
    timestamp is the integer [int(time.time())]. *)
Theorem ping_uptime_nonneg (p : Process) :
  (value (service_start_time (settings p)) <= time_time p)%Q ->
  0 <= uptime (ping p)
  /\ timestamp (ping p) = int (PFloat (time_time p)).
Proof.
  intros Hle. split; [| reflexivity]. simpl.
  pose proof (int_mono (service_start_time (settings p))
                (PFloat (time_time p)) Hle) as Hm.
  simpl in Hm. lia.
Qed.

Lemma ping_uptime_nonneg_witness :
  0 <= uptime (ping {| settings := {| service_start_time := PFloat (3 # 2) |};
                       time_time := 7 # 2 |})
  /\ timestamp (ping {| settings := {| service_start_time := PFloat (3 # 2) |};
                        time_time := 7 # 2 |}) = 3.
Proof.
  apply (ping_uptime_nonneg
           {| settings := {| service_start_time := PFloat (3 # 2) |};
              time_time := 7 # 2 |}).
  vm_compute. discriminate.
Defined.

(** C9 as stated fails: a clock that reads 50.0 in a process whose start
    time is 100.0 gives the uptime -50. *)
Lemma ping_uptime_negative :
  ~ (forall p : Process, 0 <= uptime (ping p)).
Proof.
  intros H.
  specialize (H {| settings := {| service_start_time := PFloat (inject_Z 100) |};
                   time_time := inject_Z 50 |}).
  vm_compute in H. apply H. reflexivity.
Qed.

(** C10. The two numbers of a [ping] response differ by the integer start
    time: both come from the one reading of the clock. *)
Theorem ping_timestamp_minus_uptime (p : Process) :
  timestamp (ping p) - uptime (ping p) = int (service_start_time (settings p)).
Proof. simpl. lia. Qed.

End ProbeFacts.

(** ** The taxonomy: how the constructors run *)

Section ConstructorFacts.

Import Py.
Context {ErrorCode : Type} (CLIENT_INITIALIZATION_ERROR : ErrorCode).

Abbreviation ClientInit := (ClientInitializationError CLIENT_INITIALIZATION_ERROR).
Abbreviation client_message := "The client initialization failed.".

Implicit Types (h : gmap loc (@Instance ErrorCode)) (d : @Details ErrorCode) (l : loc).

(** The location [alloc] picks is not in use. *)
Lemma fresh_unused h : h !! fresh (dom h) = None.
Proof. apply (not_elem_of_dom (D := gset loc)), is_fresh. Qed.

Lemma fresh_ne h l (o : Instance) : h !! l = Some o -> fresh (dom h) <> l.
Proof. intros Hl E. rewrite <- E, fresh_unused in Hl. discriminate. Qed.

(** The three assignments of the base initialiser, in their order, give the
    base attribute dictionary. *)
Lemma assigned_attrs (m : string) (c : ErrorCode) (v : PyValue) :
  <["details" := v]> (<["code" := VCode c]> (<["message" := VStr m]> ∅))
  = base_attrs m c v.
Proof.
  unfold base_attrs. apply map_eq. intros k.
  destruct (decide (k = "message")) as [-> | Hm];
    [rewrite lookup_insert_ne, lookup_insert_ne, !lookup_insert_eq by done; done |].
  destruct (decide (k = "code")) as [-> | Hc];
    [rewrite lookup_insert_ne, lookup_insert_eq, lookup_insert_ne,
       lookup_insert_eq by done; done |].
  destruct (decide (k = "details")) as [-> | Hd];
    [rewrite lookup_insert_eq, !lookup_insert_ne, lookup_singleton_eq by done;
     done |].
  rewrite !lookup_insert_ne, lookup_empty, lookup_singleton_ne by done. done.
Qed.

Lemma base_attrs_message m (c : ErrorCode) v :
  base_attrs m c v !! "message" = Some (VStr m).
Proof. unfold base_attrs. by rewrite lookup_insert_eq. Qed.

Lemma base_attrs_code m (c : ErrorCode) v :
  base_attrs m c v !! "code" = Some (VCode c).
Proof.
  unfold base_attrs. by rewrite lookup_insert_ne, lookup_insert_eq by done.
Qed.

Lemma base_attrs_details m (c : ErrorCode) v :
  base_attrs m c v !! "details" = Some v.
Proof.
  unfold base_attrs. by rewrite !lookup_insert_ne, lookup_singleton_eq by done.
Qed.

Lemma base_attrs_dom m (c : ErrorCode) v : dom (base_attrs m c v) = base_fields.
Proof.
  unfold base_attrs, base_fields.
  rewrite !dom_insert_L, dom_singleton_L. set_solver.
Qed.

(** The base initialiser on a freshly allocated instance. *)
Lemma CoreError__init__fresh h l (k : Class) m (c : ErrorCode) (det : option string) :
  CoreError__init__ l m c det (<[l := {| class_of := k; attrs := ∅ |}]> h)
  = (Ok tt, <[l := {| class_of := k;
                      attrs := base_attrs m c (details_value det) |}]> h).
Proof.
  unfold CoreError__init__, bind, setattr. simpl.
  rewrite !alter_insert_eq. unfold set_attr; simpl.
  by rewrite assigned_attrs.
Qed.

(** The call [CoreError(m, c, details)] returns a new instance of the base
    class carrying the three fields. *)
Lemma CoreError_run h m (c : ErrorCode) (det : option string) :
  CoreError m c det h
  = (Ok (fresh (dom h)),
     <[fresh (dom h) := {| class_of := cls_CoreError;
                           attrs := base_attrs m c (details_value det) |}]> h).
Proof.
  unfold CoreError, instantiate, bind, alloc, ret.
  by rewrite CoreError__init__fresh.
Qed.

(** The call [ClientInitializationError(d)] when [str(d)] returns [s]. *)
Lemma ClientInit_run_ok h d s :
  py_str d = Ok s ->
  ClientInit d h
  = (Ok (fresh (dom h)),
     <[fresh (dom h) :=
         {| class_of := cls_ClientInitializationError;
            attrs := base_attrs client_message
                       CLIENT_INITIALIZATION_ERROR (VStr s) |}]> h).
Proof.
  intros Hs.
  unfold ClientInitializationError, instantiate, bind, alloc, ret,
    ClientInitializationError__init__, lift.
  rewrite Hs. unfold bind. cbv beta iota.
  by rewrite CoreError__init__fresh.
Qed.

(** The call [ClientInitializationError(d)] when [str(d)] raises [r]: the
    exception propagates, and the instance that was allocated is left
    without attributes. *)
Lemma ClientInit_run_raise h d r :
  py_str d = Raise r ->
  ClientInit d h
  = (Raise r,
     <[fresh (dom h) := {| class_of := cls_ClientInitializationError;
                           attrs := ∅ |}]> h).
Proof.
  intros Hs.
  unfold ClientInitializationError, instantiate, bind, alloc, ret,
    ClientInitializationError__init__, lift.
  by rewrite Hs.
Qed.

End ConstructorFacts.

(** ** The taxonomy: operations and the heap *)

Section HeapFacts.

Import Py.
Context {ErrorCode : Type} (CLIENT_INITIALIZATION_ERROR : ErrorCode).

Abbreviation run := (run_op CLIENT_INITIALIZATION_ERROR).
Abbreviation execute := (exec CLIENT_INITIALIZATION_ERROR).

Implicit Types (h : gmap loc (@Instance ErrorCode)) (d : @Details ErrorCode) (l : loc).

(** Reading an attribute that is bound. *)
Lemma getattr_bound h l (o : Instance) (n : string) (v : PyValue) :
  h !! l = Some o -> attrs o !! n = Some v -> getattr l n h = (Ok v, h).
Proof. intros Hl Hn. unfold getattr. rewrite Hl. simpl. by rewrite Hn. Qed.

(** What each operation does to the heap: a read leaves it as it is, a
    constructor call adds one instance at an unused location. *)
Lemma run_op_heap (op : Op) h :
  snd (run op h) = h
  \/ exists o : Instance, snd (run op h) = <[fresh (dom h) := o]> h.
Proof.
  destruct op as [m c det | d | l n]; unfold run_op, bind.
  - right. rewrite CoreError_run. eauto.
  - right. destruct (py_str d) as [s | r] eqn:Hs.
    + rewrite (ClientInit_run_ok _ _ _ _ Hs). eauto.
    + rewrite (ClientInit_run_raise _ _ _ _ Hs). eauto.
  - left. unfold getattr. by destruct (h !! l ≫= _).
Qed.

(** No operation changes an instance that exists. *)
Lemma run_op_frame (op : Op) h l (o : Instance) :
  h !! l = Some o -> snd (run op h) !! l = Some o.
Proof.
  intros Hl. destruct (run_op_heap op h) as [-> | [o' ->]]; [done |].
  rewrite lookup_insert_ne; [done |]. by eapply fresh_ne.
Qed.

Lemma exec_frame (ops : list Op) h l (o : Instance) :
  h !! l = Some o -> execute ops h !! l = Some o.
Proof.
  revert h. induction ops as [| op ops IH]; intros h Hl; [done |].
  simpl. apply IH. by apply run_op_frame.
Qed.

(** An operation that returns a new instance is a constructor call that
    ran to its end: the instance is new and carries the three base
    fields. *)
Lemma run_op_created (op : Op) h l h' :
  run op h = (Ok (Created l), h') ->
  exists (k : Class) m c v,
    h !! l = None
    /\ h' = <[l := {| class_of := k; attrs := base_attrs m c v |}]> h
    /\ (forall d, op = NewClientInitializationError d ->
          exists s, py_str d = Ok s /\ v = VStr s).
Proof.
  destruct op as [m c det | d | l0 n]; unfold run_op, bind.
  - rewrite CoreError_run. unfold ret. intros [= <- <-].
    exists cls_CoreError, m, c, (details_value det).
    split; [apply fresh_unused |]. split; [done |]. intros d [=].
  - destruct (py_str d) as [s | r] eqn:Hs.
    + rewrite (ClientInit_run_ok _ _ _ _ Hs). unfold ret. intros [= <- <-].
      eexists _, _, _, (VStr s).
      split; [apply fresh_unused |]. split; [done |].
      intros d' [= <-]. eauto.
    + rewrite (ClientInit_run_raise _ _ _ _ Hs). intros [=].
  - unfold getattr. destruct (h !! l0 ≫= _); unfold ret; intros [=].
Qed.

End HeapFacts.

(** ** The taxonomy: the constructors' contracts *)

Section TaxonomyClaims.

Import Py.
Context {ErrorCode : Type} (CLIENT_INITIALIZATION_ERROR : ErrorCode).

Abbreviation ClientInit' := (ClientInitializationError CLIENT_INITIALIZATION_ERROR).
Abbreviation client_message' := "The client initialization failed.".

Implicit Types (h : gmap loc (@Instance ErrorCode)) (d : @Details ErrorCode) (l : loc).


(** C2. A [ClientInitializationError] is a [CoreError]: the instance passes
    [isinstance(_, CoreError)], a renderer that reads only message, code and
    details gets all three, exactly as from a plain [CoreError] built with
    the same fields, and the instance has no attribute besides these. *)
Theorem ClientInitializationError_isa_CoreError h d s :
  py_str d = Ok s ->
  exists l h' (o : Instance),
    ClientInit' d h = (Ok l, h')
    /\ h' !! l = Some o
    /\ isinstance h' l cls_CoreError = true
    /\ render l h'
       = (Ok (VStr client_message', VCode CLIENT_INITIALIZATION_ERROR, VStr s), h')
    /\ dom (attrs o) = base_fields
    /\ forall h0, exists l0 h0',
         CoreError client_message' CLIENT_INITIALIZATION_ERROR (Some s) h0
         = (Ok l0, h0')
         /\ fst (render l0 h0') = fst (render l h').
Proof.
  intros Hs.
  assert (Hrender : forall (k : Class) h1 l1,
    render l1 (<[l1 := {| class_of := k;
                          attrs := base_attrs client_message'
                                     CLIENT_INITIALIZATION_ERROR (VStr s) |}]> h1)
    = (Ok (VStr client_message', VCode CLIENT_INITIALIZATION_ERROR, VStr s),
       <[l1 := {| class_of := k;
                  attrs := base_attrs client_message'
                             CLIENT_INITIALIZATION_ERROR (VStr s) |}]> h1)).
  { intros k h1 l1. unfold render, bind.
    erewrite (getattr_bound _ l1 _ "message");
      [| apply lookup_insert_eq | apply base_attrs_message].
    erewrite (getattr_bound _ l1 _ "code");
      [| apply lookup_insert_eq | apply base_attrs_code].
    erewrite (getattr_bound _ l1 _ "details");
      [| apply lookup_insert_eq | apply base_attrs_details].
    reflexivity. }
  eexists _, _, _. split; [apply (ClientInit_run_ok _ _ _ _ Hs) |].
  split; [apply lookup_insert_eq |].
  split; [unfold isinstance; by rewrite lookup_insert_eq |].
  split; [apply Hrender |].
  split; [apply base_attrs_dom |].
  intros h0. eexists _, _. split; [apply CoreError_run |].
  simpl. by rewrite !Hrender.
Qed.

(** C3. [CoreError(m, c)] and [CoreError(m, c, details=x)] always return a
    new instance with message [m] and code [c]; its details are [None] when
    the argument is left out and the string [x] when it is given. *)
Theorem CoreError_fields h (m : string) (c : ErrorCode) (det : option string) :
  exists l h',
    CoreError m c det h = (Ok l, h')
    /\ h !! l = None
    /\ getattr l "message" h' = (Ok (VStr m), h')
    /\ getattr l "code" h' = (Ok (VCode c), h')
    /\ getattr l "details" h'
       = (Ok (match det with Some x => VStr x | None => VNone end), h').
Proof.
  eexists _, _. split; [apply CoreError_run |].
  split; [apply fresh_unused |].
  split; [| split]; (eapply getattr_bound; [apply lookup_insert_eq |]); simpl.
  - apply base_attrs_message.
  - apply base_attrs_code.
  - apply base_attrs_details.
Qed.

(** C4, as the code has it: [CoreError(...)] always returns, and so does
    [ClientInitializationError(d)] for every plain string; for an exception
    instance it returns when [str(d)] returns, and when [str(d)] raises, the
    call raises that same exception. *)
Theorem construction_total_on_stringifiable h d :
  (forall m c det, is_Ok (fst (CoreError (ErrorCode := ErrorCode) m c det h)) = true)
  /\ (forall s, is_Ok (fst (ClientInit' (DStr s) h)) = true)
  /\ match py_str d with
     | Ok s => exists l h', ClientInit' d h = (Ok l, h')
     | Raise r => fst (ClientInit' d h) = Raise r
     end.
Proof.
  split; [| split].
  - intros m c det. by rewrite CoreError_run.
  - intros s. by rewrite (ClientInit_run_ok _ _ (DStr s) s eq_refl).
  - destruct (py_str d) as [s | r] eqn:Hs.
    + eexists _, _. apply (ClientInit_run_ok _ _ _ _ Hs).
    + by rewrite (ClientInit_run_raise _ _ _ _ Hs).
Qed.


End TaxonomyClaims.

(** ** The contracts at concrete inputs *)

Section Instances.

Import Py.

(** The registry member, by its name; heaps of instances with such codes. *)
Abbreviation code := "CLIENT_INITIALIZATION_ERROR".
Abbreviation heap := (gmap loc (@Instance string)).
Abbreviation empty_heap := (∅ : gmap loc (@Instance string)).


(** Wrapping an exception whose [__str__] returns "connection refused". *)
Lemma ClientInitializationError_isa_CoreError_witness :
  exists l h' (o : Instance),
    ClientInitializationError code
      (DExc {| exc_class := "ConnectionError";
               dunder_str := Ok (VStr "connection refused") |}) empty_heap
    = (Ok l, h')
    /\ h' !! l = Some o
    /\ isinstance h' l cls_CoreError = true
    /\ render l h'
       = (Ok (VStr "The client initialization failed.", VCode code,
              VStr "connection refused"), h')
    /\ dom (attrs o) = base_fields
    /\ forall h0, exists l0 h0',
         CoreError "The client initialization failed." code
           (Some "connection refused") h0 = (Ok l0, h0')
         /\ fst (render l0 h0') = fst (render l h').
Proof.
  apply (ClientInitializationError_isa_CoreError code empty_heap
           (DExc {| exc_class := "ConnectionError";
                    dunder_str := Ok (VStr "connection refused") |})
           "connection refused").
  reflexivity.
Defined.

(** C4 as stated fails: for an exception instance whose [__str__] raises,
    [str(details)] raises inside the constructor and no instance is
    returned. *)
Lemma construction_raises_on_broken_str :
  ~ (forall (d : Details) (h : heap),
       exists l h', ClientInitializationError code d h = (Ok l, h')).
Proof.
  intros H.
  destruct (H (DExc {| exc_class := "BrokenError";
                       dunder_str := Raise (mkRaised "RuntimeError" "no text") |})
              empty_heap) as (l & h' & E).
  rewrite (ClientInit_run_raise code empty_heap
             (DExc {| exc_class := "BrokenError";
                      dunder_str := Raise (mkRaised "RuntimeError" "no text") |})
             (mkRaised "RuntimeError" "no text") eq_refl) in E.
  discriminate E.
Qed.


End Instances.

(** ** The error-code registry *)

Section RegistryFacts.

Import ErrorCodes.
Local Open Scope list_scope.











(** A definition that reuses a value is refused. *)
Example define_refuses_shared_value :
  define [ {| name := "CLIENT_INITIALIZATION_ERROR"; value := PrimInt 1 |};
           {| name := "UNKNOWN_ERROR"; value := PrimInt 1 |} ] = None.
Proof. vm_compute. reflexivity. Qed.

End RegistryFacts.

(** ** Further properties of [ping] *)

Section ProbeBounds.

Import PyNum Probes.

(** For a time that is not negative, [int] gives the whole second the time
    falls in. *)
Lemma trunc_bracket (q : Q) :
  (0 <= q)%Q ->
  (inject_Z (trunc q) <= q)%Q /\ (q < inject_Z (trunc q) + 1)%Q.
Proof.
  destruct q as [n d]. unfold Qle, Qlt, trunc, inject_Z, Qplus; simpl.
  intros H.
  destruct (quot_decompose n d) as (r & E & B & P & N).
  remember (n ÷ Z.pos d)%Z as k. remember (Z.pos d) as D.
  assert (0 <= r)%Z by (apply P; lia).
  split; nia.
Qed.

(** X1. When the clock is not before the epoch, the timestamp of a [ping]
    response is the whole second the clock reading falls in: it is at most
    the reading and less than a second behind it. *)
Theorem ping_timestamp_whole_second (p : Process) :
  (0 <= time_time p)%Q ->
  (inject_Z (timestamp (ping p)) <= time_time p)%Q
  /\ (time_time p < inject_Z (timestamp (ping p)) + 1)%Q.
Proof. intros H. simpl. by apply trunc_bracket. Qed.

Lemma ping_timestamp_whole_second_witness :
  (inject_Z (timestamp (ping {| settings := {| service_start_time := PInt 3 |};
                                time_time := 15 # 2 |})) <= 15 # 2)%Q
  /\ (15 # 2 < inject_Z (timestamp (ping {| settings := {| service_start_time := PInt 3 |};
                                            time_time := 15 # 2 |})) + 1)%Q.
Proof.
  apply (ping_timestamp_whole_second
           {| settings := {| service_start_time := PInt 3 |};
              time_time := 15 # 2 |}).
  vm_compute. discriminate.
Defined.

(** X2. When neither the start time nor the clock is before the epoch, the
    uptime of a [ping] response is within one second of the time that has
    really passed since the start. *)
Theorem ping_uptime_within_a_second (p : Process) :
  (0 <= value (service_start_time (settings p)))%Q ->
  (0 <= time_time p)%Q ->
  (time_time p - value (service_start_time (settings p)) - 1
     < inject_Z (uptime (ping p)))%Q
  /\ (inject_Z (uptime (ping p))
        < time_time p - value (service_start_time (settings p)) + 1)%Q.
Proof.
  intros Hs Ht. simpl. rewrite int_trunc_value.
  destruct (trunc_bracket _ Hs) as [Hs1 Hs2].
  destruct (trunc_bracket _ Ht) as [Ht1 Ht2].
  unfold Z.sub. rewrite inject_Z_plus, inject_Z_opp.
  split; lra.
Qed.

Lemma ping_uptime_within_a_second_witness :
  ((17 # 2) - (3 # 4) - 1
     < inject_Z (uptime (ping {| settings := {| service_start_time := PFloat (3 # 4) |};
                                 time_time := 17 # 2 |})))%Q
  /\ (inject_Z (uptime (ping {| settings := {| service_start_time := PFloat (3 # 4) |};
                                time_time := 17 # 2 |}))
        < (17 # 2) - (3 # 4) + 1)%Q.
Proof.
  apply (ping_uptime_within_a_second
           {| settings := {| service_start_time := PFloat (3 # 4) |};
              time_time := 17 # 2 |});
    vm_compute; discriminate.
Defined.

(** X3. Two [ping] calls in one process: when the clock of the second call
    is not behind the clock of the first, neither the timestamp nor the
    uptime goes down. *)
Theorem ping_monotone (p1 p2 : Process) :
  settings p1 = settings p2 ->
  (time_time p1 <= time_time p2)%Q ->
  (timestamp (ping p1) <= timestamp (ping p2))%Z
  /\ (uptime (ping p1) <= uptime (ping p2))%Z.
Proof.
  intros Hset Hle. simpl. rewrite Hset.
  pose proof (trunc_mono _ _ Hle). lia.
Qed.

Lemma ping_monotone_witness :
  (timestamp (ping {| settings := {| service_start_time := PFloat (1 # 2) |};
                      time_time := 5 # 2 |})
   <= timestamp (ping {| settings := {| service_start_time := PFloat (1 # 2) |};
                         time_time := 29 # 10 |}))%Z
  /\ (uptime (ping {| settings := {| service_start_time := PFloat (1 # 2) |};
                      time_time := 5 # 2 |})
      <= uptime (ping {| settings := {| service_start_time := PFloat (1 # 2) |};
                         time_time := 29 # 10 |}))%Z.
Proof.
  apply (ping_monotone
           {| settings := {| service_start_time := PFloat (1 # 2) |};
              time_time := 5 # 2 |}
           {| settings := {| service_start_time := PFloat (1 # 2) |};
              time_time := 29 # 10 |});
    [reflexivity | vm_compute; discriminate].
Defined.

End ProbeBounds.

(** ** Further properties of the [ClientInitializationError] constructor *)

Section ConstructorEffects.

Import Py.
Context {ErrorCode : Type} (CLIENT_INITIALIZATION_ERROR : ErrorCode).

Abbreviation Wrap := (ClientInitializationError CLIENT_INITIALIZATION_ERROR).
Abbreviation step := (run_op CLIENT_INITIALIZATION_ERROR).
Abbreviation steps := (exec CLIENT_INITIALIZATION_ERROR).

Implicit Types (h : gmap loc (@Instance ErrorCode)) (d : @Details ErrorCode) (l : loc).

(** X4. A call [ClientInitializationError(d)] touches one location, unused
    before, and initialises the instance there all at once or not at all:
    when the call returns, the instance has exactly the three base
    attributes; when [str(d)] raises, it has none. *)
Theorem ClientInitializationError_all_or_nothing h d :
  exists o : Instance,
    h !! fresh (dom h) = None
    /\ snd (Wrap d h) = <[fresh (dom h) := o]> h
    /\ class_of o = cls_ClientInitializationError
    /\ match fst (Wrap d h) with
       | Ok l => l = fresh (dom h) /\ dom (attrs o) = base_fields
       | Raise r => py_str d = Raise r /\ attrs o = ∅
       end.
Proof.
  destruct (py_str d) as [s | r] eqn:Hs.
  - rewrite (ClientInit_run_ok _ _ _ _ Hs). eexists. simpl.
    split; [apply fresh_unused |]. split; [reflexivity |].
    split; [reflexivity |]. split; [reflexivity | apply base_attrs_dom].
  - rewrite (ClientInit_run_raise _ _ _ _ Hs). eexists. simpl.
    split; [apply fresh_unused |]. by repeat split.
Qed.

(** X5. The constructor keeps of its argument the string form and nothing
    else: two arguments with the same outcome of [str], such as an
    exception and the text of its message, give the same result in the
    same heap. *)
Theorem ClientInitializationError_keeps_only_str h d1 d2 :
  py_str d1 = py_str d2 -> Wrap d1 h = Wrap d2 h.
Proof.
  intros E. destruct (py_str d2) as [s | r] eqn:Hs.
  - by rewrite (ClientInit_run_ok _ _ _ _ E), (ClientInit_run_ok _ _ _ _ Hs).
  - by rewrite (ClientInit_run_raise _ _ _ _ E), (ClientInit_run_raise _ _ _ _ Hs).
Qed.

(** X6. Wrapping again the details read from a [ClientInitializationError]
    gives a second, distinct instance with the same attributes, and the
    first instance stays as it was. *)
Theorem rewrapping_details h d s :
  py_str d = Ok s ->
  exists l1 h1 l2 h2 (o1 o2 : Instance),
    Wrap d h = (Ok l1, h1)
    /\ getattr l1 "details" h1 = (Ok (VStr s), h1)
    /\ Wrap (DStr s) h1 = (Ok l2, h2)
    /\ l1 <> l2
    /\ h1 !! l1 = Some o1
    /\ h2 !! l1 = Some o1
    /\ h2 !! l2 = Some o2
    /\ attrs o2 = attrs o1.
Proof.
  intros Hs. eexists _, _, _, _, _, _.
  split; [apply (ClientInit_run_ok _ _ _ _ Hs) |].
  split.
  { eapply getattr_bound; [apply lookup_insert_eq | apply base_attrs_details]. }
  split; [apply (ClientInit_run_ok _ _ (DStr s) s eq_refl) |].
  assert (Hne : fresh (dom h)
                <> fresh (dom (<[fresh (dom h) :=
                     {| class_of := cls_ClientInitializationError;
                        attrs := base_attrs "The client initialization failed."
                                   CLIENT_INITIALIZATION_ERROR (VStr s) |}]> h))).
  { intros E. symmetry in E. revert E. eapply fresh_ne. apply lookup_insert_eq. }
  split; [exact Hne |].
  split; [apply lookup_insert_eq |].
  split; [rewrite lookup_insert_ne by (intros E; by apply Hne); apply lookup_insert_eq |].
  split; [apply lookup_insert_eq | reflexivity].
Qed.

(** X7. Two constructor calls never return the same instance, whatever
    operations of the taxonomy run between them, and the second call leaves
    the first instance as it was. *)
Theorem constructions_never_alias (op1 op2 : Op) (ops : list Op) h l1 h1 l2 h2 :
  step op1 h = (Ok (Created l1), h1) ->
  step op2 (steps ops h1) = (Ok (Created l2), h2) ->
  l1 <> l2 /\ is_Some (h1 !! l1) /\ h2 !! l1 = h1 !! l1.
Proof.
  intros H1 H2.
  destruct (run_op_created _ _ _ _ _ H1) as (k1 & m1 & c1 & v1 & _ & -> & _).
  destruct (run_op_created _ _ _ _ _ H2) as (k2 & m2 & c2 & v2 & Hnew & -> & _).
  pose proof (exec_frame CLIENT_INITIALIZATION_ERROR ops _ l1 _
                (lookup_insert_eq h l1
                   {| class_of := k1; attrs := base_attrs m1 c1 v1 |}))
    as Hkept.
  assert (Hne : l1 <> l2) by (intros ->; congruence).
  split; [exact Hne |]. split; [rewrite lookup_insert_eq; eauto |].
  rewrite (lookup_insert_ne _ l2 l1) by (intros E; by apply Hne).
  by rewrite Hkept, lookup_insert_eq.
Qed.

End ConstructorEffects.

Section ConstructorEffectsAt.

Import Py.

Abbreviation code' := "CLIENT_INITIALIZATION_ERROR".
Abbreviation no_instances := (∅ : gmap loc (@Instance string)).

(** A [TimeoutError] whose text is "timed out", and that text. *)
Lemma ClientInitializationError_keeps_only_str_witness :
  ClientInitializationError code'
    (DExc {| exc_class := "TimeoutError"; dunder_str := Ok (VStr "timed out") |})
    no_instances
  = ClientInitializationError code' (DStr "timed out") no_instances.
Proof.
  apply (ClientInitializationError_keeps_only_str code' no_instances
           (DExc {| exc_class := "TimeoutError";
                    dunder_str := Ok (VStr "timed out") |})
           (DStr "timed out")).
  reflexivity.
Defined.

Lemma rewrapping_details_witness :
  exists l1 h1 l2 h2 (o1 o2 : Instance),
    ClientInitializationError code'
      (DExc {| exc_class := "TimeoutError"; dunder_str := Ok (VStr "timed out") |})
      no_instances = (Ok l1, h1)
    /\ getattr l1 "details" h1 = (Ok (VStr "timed out"), h1)
    /\ ClientInitializationError code' (DStr "timed out") h1 = (Ok l2, h2)
    /\ l1 <> l2
    /\ h1 !! l1 = Some o1
    /\ h2 !! l1 = Some o1
    /\ h2 !! l2 = Some o2
    /\ attrs o2 = attrs o1.
Proof.
  apply (rewrapping_details code' no_instances
           (DExc {| exc_class := "TimeoutError";
                    dunder_str := Ok (VStr "timed out") |})
           "timed out").
  reflexivity.
Defined.

(** Two wrappers built around a read of the first one's details. *)
Lemma constructions_never_alias_witness :
  1%positive <> 2%positive
  /\ is_Some (snd (run_op code' (NewClientInitializationError (DStr "a"))
                     no_instances) !! 1%positive)
  /\ snd (run_op code' (NewClientInitializationError (DStr "b"))
            (exec code' [GetAttr 1%positive "details"]
               (snd (run_op code' (NewClientInitializationError (DStr "a"))
                       no_instances)))) !! 1%positive
     = snd (run_op code' (NewClientInitializationError (DStr "a"))
              no_instances) !! 1%positive.
Proof.
  apply (constructions_never_alias code'
           (NewClientInitializationError (DStr "a"))
           (NewClientInitializationError (DStr "b"))
           [GetAttr 1%positive "details"]
           no_instances 1%positive _ 2%positive
           (snd (run_op code' (NewClientInitializationError (DStr "b"))
                   (exec code' [GetAttr 1%positive "details"]
                      (snd (run_op code' (NewClientInitializationError (DStr "a"))
                              no_instances))))));
    vm_compute; reflexivity.
Defined.

End ConstructorEffectsAt.
